(** * ID-card request service (server.js): model and properties

    The service is an Express application over one Mongoose connection
    ([studentDb]) with four models.  A request is modelled after [cors] and
    [express.json()] have run: it carries the route Express resolves it to and
    the parsed body.  A request is handled atomically (requests in flight at
    the same time are not interleaved): collections are lists in natural
    (insertion) order, a handler is a function from the store to an outcome,
    and what the driver may throw is given by the environment.  Body values
    are typed by the schemas: strings for the [String] paths, a timestamp for
    the [Date] path; of the keys outside [acceptedIdCardSchema] the body
    carries [adminId] only. *)

From Stdlib Require Import String List Bool Arith ZArith Lia.
Import ListNotations.
Open Scope string_scope.
Open Scope nat_scope.
Open Scope list_scope.

(** ** Documents of the four collections *)

Definition ObjectId := nat.
Definition Date := Z.

(** [acceptedIdCardSchema], collection [acceptedidcards]. *)
Module AcceptedIdCard.
Record doc := {
  _id : ObjectId;
  registerNumber : option string;
  name : option string;
  dob : option string;
  department : option string;
  year : option string;
  section : option string;
  libraryCode : option string;
  reason : option string;
  status : option string;
  acceptedAt : option Date
}.
End AcceptedIdCard.

(** [AcchistoryIdSchema], collection [acchistoryids]. *)
Module AcchistoryId.
Record doc := {
  _id : ObjectId;
  registerNumber : option string;
  name : option string;
  dob : option string;
  department : option string;
  year : option string;
  section : option string;
  libraryCode : option string;
  reason : option string;
  status : option string;
  createdAt : option Date
}.
End AcchistoryId.

(** [adminIdSchema], collection [adminids]. *)
Module AdminId.
Record doc := {
  _id : ObjectId;
  adminid : option string
}.
End AdminId.

(** [printIdSchema], collection [printids]. *)
Module PrintId.
Record doc := {
  _id : ObjectId;
  registerNumber : option string;
  name : option string;
  dob : option string;
  department : option string;
  year : option string;
  section : option string;
  libraryCode : option string;
  reason : option string;
  createdAt : option Date
}.
End PrintId.

(** [req.body]: the keys the handlers and the schemas read.  [None] is a key
    the body does not have ([undefined] in the handler). *)
Module Body.
Record t := {
  registerNumber : option string;
  name : option string;
  dob : option string;
  department : option string;
  year : option string;
  section : option string;
  libraryCode : option string;
  reason : option string;
  status : option string;
  acceptedAt : option Date;
  adminId : option string
}.

Definition empty : t :=
  {| registerNumber := None; name := None; dob := None; department := None;
     year := None; section := None; libraryCode := None; reason := None;
     status := None; acceptedAt := None; adminId := None |}.
End Body.

(** ** Store, environment, requests and responses *)

(** [studentDb]: the connection's [readyState] (1 is connected) and the
    contents of its collections. *)
Record State := {
  readyState : nat;
  printids : list PrintId.doc;
  acchistoryids : list AcchistoryId.doc;
  acceptedidcards : list AcceptedIdCard.doc;
  adminids : list AdminId.doc
}.

Inductive Model := M_PrintId | M_AcchistoryId | M_AcceptedIdCard | M_AdminId.

(** The storage operations the handlers issue. *)
Inductive Op :=
| Find (m : Model)
| FindOne (m : Model)
| Save (m : Model)
| DeleteOne (m : Model).

(** What a request gets from outside the program: the clock, the identifier
    Mongoose generates for a new document, and for each storage operation the
    error the driver throws, if any ([err.message]). *)
Record Env := {
  now : Date;
  newObjectId : ObjectId;
  fault : Op -> option string
}.

(** The routes of the application; [Unrouted] is a request no route matches. *)
Inductive Endpoint :=
| GET_healthz
| GET_printed
| GET_acchistoryids
| GET_accepted_idcards
| POST_accept_idcard
| POST_login
| Unrouted.

Record Request := {
  endpoint : Endpoint;
  body : Body.t
}.

Inductive Payload :=
| PError (error : string)
| PHealth (ok db : bool)
| PPrinted (docs : list PrintId.doc)
| PAcchistory (docs : list AcchistoryId.doc)
| PAccepted (docs : list AcceptedIdCard.doc)
| PAcceptOk (message : string) (data : AcceptedIdCard.doc)
| PLogin (success : bool) (message : option string)
| PNotFound.

Record Response := {
  statusCode : nat;
  payload : Payload
}.

(** The statement of server.js that sends the response, by its line. *)
Inductive Site :=
| L119 | L126
| L133 | L135
| L143 | L145
| L153 | L155
| L163 | L173 | L179
| L189 | L191 | L194
| Fallthrough.

(** What handling a request produces: the response, the statement that sent
    it, the store afterwards and the storage operations issued, in order. *)
Record Outcome := {
  site : Site;
  response : Response;
  store : State;
  ops : list Op
}.

Definition respond (l : Site) (code : nat) (p : Payload) (st : State)
  (tr : list Op) : Outcome :=
  {| site := l; response := {| statusCode := code; payload := p |};
     store := st; ops := tr |}.

(** ** Storage operations *)

Inductive Result (A : Type) :=
| Ok (a : A)
| Threw (message : string).
Arguments Ok {A} a.
Arguments Threw {A} message.

(** What Mongoose makes of a stored document it loads without [.lean()]: the
    schema's defaults are filled into the defaulted paths the stored document
    lacks, [Date.now] being the time of the read.  The store is not touched. *)
Definition hydrate_PrintId (env : Env) (d : PrintId.doc) : PrintId.doc :=
  {| PrintId._id := PrintId._id d;
     PrintId.registerNumber := PrintId.registerNumber d;
     PrintId.name := PrintId.name d;
     PrintId.dob := PrintId.dob d;
     PrintId.department := PrintId.department d;
     PrintId.year := PrintId.year d;
     PrintId.section := PrintId.section d;
     PrintId.libraryCode := PrintId.libraryCode d;
     PrintId.reason := PrintId.reason d;
     PrintId.createdAt :=
       Some (match PrintId.createdAt d with Some t => t | None => now env end) |}.

Definition hydrate_AcchistoryId (env : Env) (d : AcchistoryId.doc)
  : AcchistoryId.doc :=
  {| AcchistoryId._id := AcchistoryId._id d;
     AcchistoryId.registerNumber := AcchistoryId.registerNumber d;
     AcchistoryId.name := AcchistoryId.name d;
     AcchistoryId.dob := AcchistoryId.dob d;
     AcchistoryId.department := AcchistoryId.department d;
     AcchistoryId.year := AcchistoryId.year d;
     AcchistoryId.section := AcchistoryId.section d;
     AcchistoryId.libraryCode := AcchistoryId.libraryCode d;
     AcchistoryId.reason := AcchistoryId.reason d;
     AcchistoryId.status := AcchistoryId.status d;
     AcchistoryId.createdAt :=
       Some (match AcchistoryId.createdAt d with
             | Some t => t
             | None => now env
             end) |}.

Definition hydrate_AcceptedIdCard (env : Env) (d : AcceptedIdCard.doc)
  : AcceptedIdCard.doc :=
  {| AcceptedIdCard._id := AcceptedIdCard._id d;
     AcceptedIdCard.registerNumber := AcceptedIdCard.registerNumber d;
     AcceptedIdCard.name := AcceptedIdCard.name d;
     AcceptedIdCard.dob := AcceptedIdCard.dob d;
     AcceptedIdCard.department := AcceptedIdCard.department d;
     AcceptedIdCard.year := AcceptedIdCard.year d;
     AcceptedIdCard.section := AcceptedIdCard.section d;
     AcceptedIdCard.libraryCode := AcceptedIdCard.libraryCode d;
     AcceptedIdCard.reason := AcceptedIdCard.reason d;
     AcceptedIdCard.status :=
       Some (match AcceptedIdCard.status d with
             | Some s => s
             | None => "accepted"
             end);
     AcceptedIdCard.acceptedAt :=
       Some (match AcceptedIdCard.acceptedAt d with
             | Some t => t
             | None => now env
             end) |}.

(** [Model.find({})]: every document, in natural order, hydrated. *)
Definition find_all {D : Type} (env : Env) (m : Model) (hydrate : D -> D)
  (coll : list D) : Result (list D) :=
  match fault env (Find m) with
  | Some msg => Threw msg
  | None => Ok (map hydrate coll)
  end.

(** One entry [{ path: v }] of a filter against a document's value at [path].
    A string matches the documents that hold exactly that string.  An entry
    whose value is [undefined] is sent as [null] (the connection is created
    without [ignoreUndefined]) and matches the documents in which the path is
    null or missing. *)
Definition matches_path (v : option string) (field : option string) : bool :=
  match v with
  | None =>
      match field with
      | Some _ => false
      | None => true
      end
  | Some s =>
      match field with
      | Some f => String.eqb f s
      | None => false
      end
  end.

Fixpoint remove_first {D : Type} (p : D -> bool) (l : list D) : list D :=
  match l with
  | [] => []
  | d :: l' => if p d then l' else d :: remove_first p l'
  end.

Definition set_acceptedidcards (st : State) (l : list AcceptedIdCard.doc) : State :=
  {| readyState := readyState st; printids := printids st;
     acchistoryids := acchistoryids st; acceptedidcards := l;
     adminids := adminids st |}.

Definition set_printids (st : State) (l : list PrintId.doc) : State :=
  {| readyState := readyState st; printids := l;
     acchistoryids := acchistoryids st;
     acceptedidcards := acceptedidcards st; adminids := adminids st |}.

Definition duplicate_key : string := "E11000 duplicate key error".

(** [new AcceptedIdCard(req.body)]: the schema's paths taken from the body,
    with the schema's defaults for [status] and [acceptedAt]. *)
Definition new_AcceptedIdCard (env : Env) (b : Body.t) : AcceptedIdCard.doc :=
  {| AcceptedIdCard._id := newObjectId env;
     AcceptedIdCard.registerNumber := Body.registerNumber b;
     AcceptedIdCard.name := Body.name b;
     AcceptedIdCard.dob := Body.dob b;
     AcceptedIdCard.department := Body.department b;
     AcceptedIdCard.year := Body.year b;
     AcceptedIdCard.section := Body.section b;
     AcceptedIdCard.libraryCode := Body.libraryCode b;
     AcceptedIdCard.reason := Body.reason b;
     AcceptedIdCard.status :=
       Some (match Body.status b with Some s => s | None => "accepted" end);
     AcceptedIdCard.acceptedAt :=
       Some (match Body.acceptedAt b with Some t => t | None => now env end) |}.

(** [acceptedIdCard.save()]: inserts the document at the end of
    [acceptedidcards]; the store refuses an [_id] it already holds. *)
Definition save (env : Env) (st : State) (card : AcceptedIdCard.doc)
  : Result (AcceptedIdCard.doc * State) :=
  match fault env (Save M_AcceptedIdCard) with
  | Some msg => Threw msg
  | None =>
      if existsb (fun d => AcceptedIdCard._id d =? AcceptedIdCard._id card)
                 (acceptedidcards st)
      then Threw duplicate_key
      else Ok (card, set_acceptedidcards st (acceptedidcards st ++ [card]))
  end.

(** [PrintId.deleteOne({ registerNumber: v })]: removes the first document
    that matches, if there is one. *)
Definition deleteOne (env : Env) (st : State) (v : option string)
  : Result State :=
  match fault env (DeleteOne M_PrintId) with
  | Some msg => Threw msg
  | None =>
      Ok (set_printids st
            (remove_first (fun d => matches_path v (PrintId.registerNumber d))
                          (printids st)))
  end.

(** [AdminId.findOne({ adminid: v }, { _id: 1 }).lean()]: the [_id] of the
    first document that matches, or [null]. *)
Definition findOne (env : Env) (st : State) (v : option string)
  : Result (option ObjectId) :=
  match fault env (FindOne M_AdminId) with
  | Some msg => Threw msg
  | None =>
      Ok (option_map AdminId._id
            (find (fun d => matches_path v (AdminId.adminid d)) (adminids st)))
  end.

(** ** Handlers *)

(** [app.get("/healthz", ...)] *)
Definition healthz (st : State) : Outcome :=
  respond L126 200 (PHealth true (readyState st =? 1)) st [].

(** [app.get("/api/printed", ...)] *)
Definition printed (env : Env) (st : State) : Outcome :=
  match find_all env M_PrintId (hydrate_PrintId env) (printids st) with
  | Ok printData => respond L133 200 (PPrinted printData) st [Find M_PrintId]
  | Threw msg => respond L135 500 (PError msg) st [Find M_PrintId]
  end.

(** [app.get("/api/acchistoryids", ...)] *)
Definition acchistory (env : Env) (st : State) : Outcome :=
  match find_all env M_AcchistoryId (hydrate_AcchistoryId env)
          (acchistoryids st) with
  | Ok acchistoryData =>
      respond L143 200 (PAcchistory acchistoryData) st [Find M_AcchistoryId]
  | Threw msg => respond L145 500 (PError msg) st [Find M_AcchistoryId]
  end.

(** [app.get("/api/accepted-idcards", ...)] *)
Definition accepted_idcards (env : Env) (st : State) : Outcome :=
  match find_all env M_AcceptedIdCard (hydrate_AcceptedIdCard env)
          (acceptedidcards st) with
  | Ok acceptedCards =>
      respond L153 200 (PAccepted acceptedCards) st [Find M_AcceptedIdCard]
  | Threw msg => respond L155 500 (PError msg) st [Find M_AcceptedIdCard]
  end.

Definition accepted_message : string := "ID card request accepted successfully".

(** [app.post("/api/accept-idcard", ...)] *)
Definition accept_idcard (env : Env) (st : State) (b : Body.t) : Outcome :=
  if negb (readyState st =? 1) then
    respond L163 500 (PError "Database not connected") st []
  else
    let acceptedIdCard := new_AcceptedIdCard env b in
    match save env st acceptedIdCard with
    | Threw msg => respond L179 500 (PError msg) st [Save M_AcceptedIdCard]
    | Ok (savedCard, st1) =>
        match deleteOne env st1 (Body.registerNumber b) with
        | Threw msg =>
            respond L179 500 (PError msg) st1
                    [Save M_AcceptedIdCard; DeleteOne M_PrintId]
        | Ok st2 =>
            respond L173 201 (PAcceptOk accepted_message savedCard) st2
                    [Save M_AcceptedIdCard; DeleteOne M_PrintId]
        end
    end.

(** [app.post("/api/login", ...)] *)
Definition login (env : Env) (st : State) (b : Body.t) : Outcome :=
  let adminId := Body.adminId b in
  match findOne env st adminId with
  | Ok (Some _) => respond L189 200 (PLogin true None) st [FindOne M_AdminId]
  | Ok None =>
      respond L191 401 (PLogin false (Some "Invalid admin ID")) st
              [FindOne M_AdminId]
  | Threw msg => respond L194 500 (PError msg) st [FindOne M_AdminId]
  end.

(** The routes, in the order they are registered after the gate. *)
Definition route (env : Env) (st : State) (req : Request) : Outcome :=
  match endpoint req with
  | GET_healthz => healthz st
  | GET_printed => printed env st
  | GET_acchistoryids => acchistory env st
  | GET_accepted_idcards => accepted_idcards env st
  | POST_accept_idcard => accept_idcard env st (body req)
  | POST_login => login env st (body req)
  | Unrouted => respond Fallthrough 404 PNotFound st []
  end.

Definition gate_message : string := "Database connecting. Please retry.".

(** The application: the gate middleware ([app.use], registered before every
    route) answers 503 unless the connection is ready, else calls [next()]. *)
Definition handle (env : Env) (st : State) (req : Request) : Outcome :=
  if negb (readyState st =? 1) then
    respond L119 503 (PError gate_message) st []
  else route env st req.

(** ** Requests and sample data *)

Definition request (e : Endpoint) (b : Body.t) : Request :=
  {| endpoint := e; body := b |}.

Definition get (e : Endpoint) : Request := request e Body.empty.

Definition reply (code : nat) (p : Payload) : Response :=
  {| statusCode := code; payload := p |}.

(** An environment in which no storage operation fails. *)
Definition calm (t : Date) (id : ObjectId) : Env :=
  {| now := t; newObjectId := id; fault := fun _ => None |}.

(** An environment in which exactly the operation [op] fails, with [msg]. *)
Definition op_eqb (a b : Op) : bool :=
  match a, b with
  | Find m, Find m' | FindOne m, FindOne m'
  | Save m, Save m' | DeleteOne m, DeleteOne m' =>
      match m, m' with
      | M_PrintId, M_PrintId | M_AcchistoryId, M_AcchistoryId
      | M_AcceptedIdCard, M_AcceptedIdCard | M_AdminId, M_AdminId => true
      | _, _ => false
      end
  | _, _ => false
  end.

Definition failing (t : Date) (id : ObjectId) (op : Op) (msg : string) : Env :=
  {| now := t; newObjectId := id;
     fault := fun o => if op_eqb o op then Some msg else None |}.

Definition empty_store (ready : nat) : State :=
  {| readyState := ready; printids := []; acchistoryids := [];
     acceptedidcards := []; adminids := [] |}.

Definition print_request (id : ObjectId) (r : string) : PrintId.doc :=
  {| PrintId._id := id; PrintId.registerNumber := Some r;
     PrintId.name := Some "A"; PrintId.dob := Some "2000-01-01";
     PrintId.department := Some "CS"; PrintId.year := Some "2";
     PrintId.section := Some "A"; PrintId.libraryCode := Some "L1";
     PrintId.reason := Some "graduation"; PrintId.createdAt := Some 0%Z |}.

Definition accept_body (r : string) (st : option string) : Body.t :=
  {| Body.registerNumber := Some r; Body.name := Some "A";
     Body.dob := Some "2000-01-01"; Body.department := Some "CS";
     Body.year := Some "2"; Body.section := Some "A";
     Body.libraryCode := Some "L1"; Body.reason := Some "graduation";
     Body.status := st; Body.acceptedAt := None; Body.adminId := None |}.

Definition login_body (a : option string) : Body.t :=
  {| Body.registerNumber := None; Body.name := None; Body.dob := None;
     Body.department := None; Body.year := None; Body.section := None;
     Body.libraryCode := None; Body.reason := None; Body.status := None;
     Body.acceptedAt := None; Body.adminId := a |}.

Definition admin (id : ObjectId) (a : string) : AdminId.doc :=
  {| AdminId._id := id; AdminId.adminid := Some a |}.

(** ** Listings and the statements compared with the code *)

(** The documents of a listing whose [registerNumber] is the string [r]. *)
Definition printed_with (r : string) (l : list PrintId.doc) : list PrintId.doc :=
  filter (fun d => matches_path (Some r) (PrintId.registerNumber d)) l.

Definition accepted_with (r : string) (l : list AcceptedIdCard.doc)
  : list AcceptedIdCard.doc :=
  filter (fun d => matches_path (Some r) (AcceptedIdCard.registerNumber d)) l.

Definition accept (env : Env) (st : State) (b : Body.t) : Outcome :=
  handle env st (request POST_accept_idcard b).

(** What the specification promises of the store [st'] an accept of register
    number [r] leaves: GET /api/accepted-idcards, then GET /api/printed, list
    exactly one accepted document with [r], of status "accepted", and no print
    request with [r]. *)
Definition accepted_once_and_unprinted (r : string) (st' : State)
  (env1 env2 : Env) : Prop :=
  let o1 := handle env1 st' (get GET_accepted_idcards) in
  let o2 := handle env2 (store o1) (get GET_printed) in
  exists cards prints d,
    response o1 = reply 200 (PAccepted cards) /\
    response o2 = reply 200 (PPrinted prints) /\
    accepted_with r cards = [d] /\
    AcceptedIdCard.status d = Some "accepted" /\
    printed_with r prints = [].

(** What the specification promises of the print requests after an accept of
    register number [r]: none with [r] is left. *)
Definition all_matching_deleted (r : string) (st' : State) : Prop :=
  printed_with r (printids st') = [].

Definition ready_store (prints : list PrintId.doc)
  (cards : list AcceptedIdCard.doc) (admins : list AdminId.doc) : State :=
  {| readyState := 1; printids := prints; acchistoryids := [];
     acceptedidcards := cards; adminids := admins |}.

(** Requests handled one after the other, each with its own environment:
    the store one request leaves is the store the next one finds. *)
Fixpoint run (st : State) (reqs : list (Env * Request)) : State :=
  match reqs with
  | [] => st
  | (env, req) :: rest => run (store (handle env st req)) rest
  end.

(** ** The request body and a stored card as JSON objects *)

Inductive Value :=
| VString (s : string)
| VDate (t : Date)
| VObjectId (i : ObjectId).

Definition entry (k : string) (v : option Value) : list (string * Value) :=
  match v with
  | Some x => [(k, x)]
  | None => []
  end.

(** The keys [req.body] has, with their values. *)
Definition body_entries (b : Body.t) : list (string * Value) :=
  entry "registerNumber" (option_map VString (Body.registerNumber b))
  ++ entry "name" (option_map VString (Body.name b))
  ++ entry "dob" (option_map VString (Body.dob b))
  ++ entry "department" (option_map VString (Body.department b))
  ++ entry "year" (option_map VString (Body.year b))
  ++ entry "section" (option_map VString (Body.section b))
  ++ entry "libraryCode" (option_map VString (Body.libraryCode b))
  ++ entry "reason" (option_map VString (Body.reason b))
  ++ entry "status" (option_map VString (Body.status b))
  ++ entry "acceptedAt" (option_map VDate (Body.acceptedAt b))
  ++ entry "adminId" (option_map VString (Body.adminId b)).

(** The keys an accepted card has, with their values. *)
Definition card_entries (d : AcceptedIdCard.doc) : list (string * Value) :=
  ("_id", VObjectId (AcceptedIdCard._id d))
  :: entry "registerNumber" (option_map VString (AcceptedIdCard.registerNumber d))
  ++ entry "name" (option_map VString (AcceptedIdCard.name d))
  ++ entry "dob" (option_map VString (AcceptedIdCard.dob d))
  ++ entry "department" (option_map VString (AcceptedIdCard.department d))
  ++ entry "year" (option_map VString (AcceptedIdCard.year d))
  ++ entry "section" (option_map VString (AcceptedIdCard.section d))
  ++ entry "libraryCode" (option_map VString (AcceptedIdCard.libraryCode d))
  ++ entry "reason" (option_map VString (AcceptedIdCard.reason d))
  ++ entry "status" (option_map VString (AcceptedIdCard.status d))
  ++ entry "acceptedAt" (option_map VDate (AcceptedIdCard.acceptedAt d)).

(** The paths [acceptedIdCardSchema] declares. *)
Definition accepted_paths : list string :=
  ["registerNumber"; "name"; "dob"; "department"; "year"; "section";
   "libraryCode"; "reason"; "status"; "acceptedAt"].

(** What the specification promises of the card an accept stores: the
    request body verbatim, that is, every key of the body with its value. *)
Definition stored_verbatim (b : Body.t) (d : AcceptedIdCard.doc) : Prop :=
  incl (body_entries b) (card_entries d).

(** An accepted card stored without [status] and [acceptedAt], and a print
    request stored without [createdAt]. *)
Definition bare_card (id : ObjectId) (r : string) : AcceptedIdCard.doc :=
  {| AcceptedIdCard._id := id; AcceptedIdCard.registerNumber := Some r;
     AcceptedIdCard.name := Some "A"; AcceptedIdCard.dob := None;
     AcceptedIdCard.department := None; AcceptedIdCard.year := None;
     AcceptedIdCard.section := None; AcceptedIdCard.libraryCode := None;
     AcceptedIdCard.reason := None; AcceptedIdCard.status := None;
     AcceptedIdCard.acceptedAt := None |}.

Definition bare_print_request (id : ObjectId) : PrintId.doc :=
  {| PrintId._id := id; PrintId.registerNumber := None;
     PrintId.name := Some "B"; PrintId.dob := None;
     PrintId.department := None; PrintId.year := None;
     PrintId.section := None; PrintId.libraryCode := None;
     PrintId.reason := None; PrintId.createdAt := None |}.

Definition with_adminId (b : Body.t) (a : string) : Body.t :=
  {| Body.registerNumber := Body.registerNumber b; Body.name := Body.name b;
     Body.dob := Body.dob b; Body.department := Body.department b;
     Body.year := Body.year b; Body.section := Body.section b;
     Body.libraryCode := Body.libraryCode b; Body.reason := Body.reason b;
     Body.status := Body.status b; Body.acceptedAt := Body.acceptedAt b;
     Body.adminId := Some a |}.

(** ** The gate *)

Lemma handle_ready env st req :
  readyState st = 1 -> handle env st req = route env st req.
Proof.
  intros H. unfold handle. rewrite H. reflexivity.
Qed.

Lemma handle_not_ready env st req :
  readyState st <> 1 ->
  handle env st req = respond L119 503 (PError gate_message) st [].
Proof.
  intros H. unfold handle.
  destruct (Nat.eqb_spec (readyState st) 1) as [E | _]; [contradiction | reflexivity].
Qed.

(** Whatever the endpoint, the store keeps its ready state. *)
Lemma handle_readyState env st req :
  readyState (store (handle env st req)) = readyState st.
Proof.
  unfold handle.
  destruct (readyState st =? 1) eqn:E; simpl; [| reflexivity].
  unfold route. destruct (endpoint req); simpl; try reflexivity.
  - unfold printed, find_all. destruct (fault env _); reflexivity.
  - unfold acchistory, find_all. destruct (fault env _); reflexivity.
  - unfold accepted_idcards, find_all. destruct (fault env _); reflexivity.
  - unfold accept_idcard. rewrite E. simpl.
    unfold save. destruct (fault env (Save _)); [reflexivity |].
    destruct (existsb _ _); [reflexivity |].
    unfold deleteOne. destruct (fault env (DeleteOne _)); reflexivity.
  - unfold login, findOne. destruct (fault env _); [reflexivity |].
    destruct (option_map _ _); reflexivity.
Qed.

(** C4: while the connection's ready state is not "connected" (1), a request
    to any of the five API endpoints is answered 503 with
    [{error: "Database connecting. Please retry."}], no storage operation is
    issued and the store is left as it was. *)
Theorem gate_blocks_api_when_not_ready env st req :
  readyState st <> 1 ->
  In (endpoint req)
     [GET_printed; GET_acchistoryids; GET_accepted_idcards;
      POST_accept_idcard; POST_login] ->
  response (handle env st req)
    = reply 503 (PError "Database connecting. Please retry.")
  /\ ops (handle env st req) = []
  /\ store (handle env st req) = st.
Proof.
  intros Hnr _. rewrite (handle_not_ready env st req Hnr).
  repeat split.
Qed.

Lemma gate_blocks_api_when_not_ready_witness :
  response (handle (calm 0%Z 7)
              {| readyState := 2; printids := [print_request 1 "R1"];
                 acchistoryids := []; acceptedidcards := [];
                 adminids := [admin 1 "admin1"] |}
              (request POST_accept_idcard (accept_body "R1" None)))
    = reply 503 (PError "Database connecting. Please retry.")
  /\ ops (handle (calm 0%Z 7)
              {| readyState := 2; printids := [print_request 1 "R1"];
                 acchistoryids := []; acceptedidcards := [];
                 adminids := [admin 1 "admin1"] |}
              (request POST_accept_idcard (accept_body "R1" None))) = []
  /\ store (handle (calm 0%Z 7)
              {| readyState := 2; printids := [print_request 1 "R1"];
                 acchistoryids := []; acceptedidcards := [];
                 adminids := [admin 1 "admin1"] |}
              (request POST_accept_idcard (accept_body "R1" None)))
     = {| readyState := 2; printids := [print_request 1 "R1"];
          acchistoryids := []; acceptedidcards := [];
          adminids := [admin 1 "admin1"] |}.
Proof.
  apply gate_blocks_api_when_not_ready.
  - simpl. lia.
  - simpl. tauto.
Defined.

(** C3 (the code departs from it): GET /healthz goes through the gate like any
    other request, so while the connection is connecting (ready state 2) it is
    answered 503 by the gate and the health handler is not run. *)
Theorem healthz_blocked_while_connecting :
  let o := handle (calm 0%Z 7) (empty_store 2) (get GET_healthz) in
  response o = reply 503 (PError "Database connecting. Please retry.")
  /\ site o = L119
  /\ response (healthz (empty_store 2)) = reply 200 (PHealth true false).
Proof.
  repeat split.
Qed.

(** The health handler answers only when the connection is ready: the [db]
    flag of a health response is never false. *)
Lemma healthz_db_always_true env st ok db :
  payload (response (handle env st (get GET_healthz))) = PHealth ok db ->
  db = true.
Proof.
  unfold handle.
  destruct (readyState st =? 1) eqn:E; simpl.
  - rewrite E. intros H. injection H as _ H. symmetry. exact H.
  - discriminate.
Qed.

(** C10: no request is answered by the accept handler's own not-connected
    branch (line 163); a request answered by the accept handler found the
    connection ready, because the gate answers 503 otherwise; the branch is
    live in the handler taken alone. *)
Theorem accept_not_connected_branch_unreachable env st req :
  site (handle env st req) <> L163
  /\ (In (site (handle env st req)) [L163; L173; L179] -> readyState st = 1)
  /\ (readyState st <> 1 ->
      site (handle env st req) = L119
      /\ forall b, site (accept_idcard env st b) = L163).
Proof.
  destruct (Nat.eq_dec (readyState st) 1) as [E | N].
  - rewrite (handle_ready env st req E). repeat split; try easy.
    unfold route. destruct (endpoint req); simpl; try discriminate.
    + unfold printed, find_all. destruct (fault env _); discriminate.
    + unfold acchistory, find_all. destruct (fault env _); discriminate.
    + unfold accepted_idcards, find_all. destruct (fault env _); discriminate.
    + unfold accept_idcard. rewrite E. simpl.
      destruct (save env st _) as [[c st1] | m]; [| discriminate].
      destruct (deleteOne env st1 _); discriminate.
    + unfold login. destruct (findOne env st _) as [[i |] | m]; discriminate.
  - rewrite (handle_not_ready env st req N). repeat split; try discriminate.
    + simpl. intros [H | [H | [H | []]]]; discriminate.
    + intros b. unfold accept_idcard.
      destruct (Nat.eqb_spec (readyState st) 1); [contradiction | reflexivity].
Qed.

Lemma accept_not_connected_branch_unreachable_witness :
  (In (site (handle (calm 0%Z 7) (ready_store [print_request 1 "R1"] [] [])
               (request POST_accept_idcard (accept_body "R1" None))))
      [L163; L173; L179]
   /\ readyState (ready_store [print_request 1 "R1"] [] []) = 1)
  /\ (readyState (empty_store 0) <> 1
      /\ site (handle (calm 0%Z 7) (empty_store 0)
                 (request POST_accept_idcard (accept_body "R1" None))) = L119
      /\ site (accept_idcard (calm 0%Z 7) (empty_store 0)
                 (accept_body "R1" None)) = L163).
Proof.
  split.
  - split.
    + simpl. tauto.
    + apply (accept_not_connected_branch_unreachable (calm 0%Z 7)
               (ready_store [print_request 1 "R1"] [] [])
               (request POST_accept_idcard (accept_body "R1" None))).
      simpl. tauto.
  - assert (N : readyState (empty_store 0) <> 1) by (simpl; lia).
    split; [exact N |].
    destruct (accept_not_connected_branch_unreachable (calm 0%Z 7)
                (empty_store 0)
                (request POST_accept_idcard (accept_body "R1" None)))
      as (_ & _ & H).
    destruct (H N) as [H1 H2]. split; [exact H1 | apply H2].
Defined.

(** ** Read endpoints *)

Lemma printed_reads env st :
  readyState st = 1 ->
  store (handle env st (get GET_printed)) = st
  /\ match fault env (Find M_PrintId) with
     | None => response (handle env st (get GET_printed))
               = reply 200 (PPrinted (map (hydrate_PrintId env) (printids st)))
     | Some msg => response (handle env st (get GET_printed))
                   = reply 500 (PError msg)
     end.
Proof.
  intros E. rewrite (handle_ready _ _ _ E). unfold route. simpl.
  unfold printed, find_all. destruct (fault env _); split; reflexivity.
Qed.

Lemma acchistory_reads env st :
  readyState st = 1 ->
  store (handle env st (get GET_acchistoryids)) = st
  /\ match fault env (Find M_AcchistoryId) with
     | None => response (handle env st (get GET_acchistoryids))
               = reply 200 (PAcchistory (map (hydrate_AcchistoryId env)
                                             (acchistoryids st)))
     | Some msg => response (handle env st (get GET_acchistoryids))
                   = reply 500 (PError msg)
     end.
Proof.
  intros E. rewrite (handle_ready _ _ _ E). unfold route. simpl.
  unfold acchistory, find_all. destruct (fault env _); split; reflexivity.
Qed.

Lemma accepted_reads env st :
  readyState st = 1 ->
  store (handle env st (get GET_accepted_idcards)) = st
  /\ match fault env (Find M_AcceptedIdCard) with
     | None => response (handle env st (get GET_accepted_idcards))
               = reply 200 (PAccepted (map (hydrate_AcceptedIdCard env)
                                           (acceptedidcards st)))
     | Some msg => response (handle env st (get GET_accepted_idcards))
                   = reply 500 (PError msg)
     end.
Proof.
  intros E. rewrite (handle_ready _ _ _ E). unfold route. simpl.
  unfold accepted_idcards, find_all. destruct (fault env _); split; reflexivity.
Qed.

(** A document that has its defaulted paths is loaded as it is stored. *)
Lemma hydrate_PrintId_complete env l :
  Forall (fun d => PrintId.createdAt d <> None) l ->
  map (hydrate_PrintId env) l = l.
Proof.
  induction 1 as [| d l Hd _ IH]; simpl; [reflexivity |].
  rewrite IH. f_equal. destruct d as [i r n o p y s c e t]. simpl in *.
  destruct t; [reflexivity | contradiction].
Qed.

Lemma hydrate_AcchistoryId_complete env l :
  Forall (fun d => AcchistoryId.createdAt d <> None) l ->
  map (hydrate_AcchistoryId env) l = l.
Proof.
  induction 1 as [| d l Hd _ IH]; simpl; [reflexivity |].
  rewrite IH. f_equal. destruct d as [i r n o p y s c e u t]. simpl in *.
  destruct t; [reflexivity | contradiction].
Qed.

Lemma hydrate_AcceptedIdCard_complete env l :
  Forall (fun d => AcceptedIdCard.status d <> None
                   /\ AcceptedIdCard.acceptedAt d <> None) l ->
  map (hydrate_AcceptedIdCard env) l = l.
Proof.
  induction 1 as [| d l Hd _ IH]; simpl; [reflexivity |].
  rewrite IH. f_equal. destruct d as [i r n o p y s c e u t]. simpl in *.
  destruct Hd as [Hu Ht].
  destruct u; [| contradiction]. destruct t; [reflexivity | contradiction].
Qed.

Lemma accepted_with_hydrate r env l :
  accepted_with r (map (hydrate_AcceptedIdCard env) l)
  = map (hydrate_AcceptedIdCard env) (accepted_with r l).
Proof.
  unfold accepted_with. rewrite filter_map_swap. reflexivity.
Qed.

Lemma printed_with_hydrate r env l :
  printed_with r (map (hydrate_PrintId env) l)
  = map (hydrate_PrintId env) (printed_with r l).
Proof.
  unfold printed_with. rewrite filter_map_swap. reflexivity.
Qed.

(** C8, as stated, fails: a card stored without [status] and [acceptedAt] is
    listed by GET /api/accepted-idcards with status "accepted" and the time of
    the request as [acceptedAt], so the array is not the stored documents. *)
Lemma listing_fills_in_schema_defaults :
  let st := ready_store [] [bare_card 1 "R1"] [] in
  let o := handle (calm 1900%Z 7) st (get GET_accepted_idcards) in
  response o
    = reply 200 (PAccepted [hydrate_AcceptedIdCard (calm 1900%Z 7)
                              (bare_card 1 "R1")])
  /\ AcceptedIdCard.status
       (hydrate_AcceptedIdCard (calm 1900%Z 7) (bare_card 1 "R1"))
     = Some "accepted"
  /\ AcceptedIdCard.acceptedAt
       (hydrate_AcceptedIdCard (calm 1900%Z 7) (bare_card 1 "R1"))
     = Some 1900%Z
  /\ response o <> reply 200 (PAccepted (acceptedidcards st))
  /\ store o = st.
Proof.
  repeat split. vm_compute. discriminate.
Qed.

(** C8, amended: with the connection ready, each of GET /api/printed,
    /api/acchistoryids and /api/accepted-idcards, when its read succeeds,
    answers 200 with one entry per document of its collection, in collection
    order: the stored document with the schema defaults filled into the
    defaulted paths it lacks; so the documents are listed as stored when they
    have their defaulted paths, and an empty collection gives the empty list,
    still with 200.  When the read throws the answer is 500 with
    [{error: <message>}].  The store is left as it was. *)
Theorem read_endpoints_list_hydrated_collection env st :
  readyState st = 1 ->
  ((forall msg, fault env (Find M_PrintId) = Some msg ->
      response (handle env st (get GET_printed)) = reply 500 (PError msg))
   /\ (fault env (Find M_PrintId) = None ->
       response (handle env st (get GET_printed))
         = reply 200 (PPrinted (map (hydrate_PrintId env) (printids st)))
       /\ (Forall (fun d => PrintId.createdAt d <> None) (printids st) ->
           response (handle env st (get GET_printed))
             = reply 200 (PPrinted (printids st)))
       /\ (printids st = [] ->
           response (handle env st (get GET_printed))
             = reply 200 (PPrinted [])))
   /\ store (handle env st (get GET_printed)) = st)
  /\ ((forall msg, fault env (Find M_AcchistoryId) = Some msg ->
       response (handle env st (get GET_acchistoryids))
         = reply 500 (PError msg))
      /\ (fault env (Find M_AcchistoryId) = None ->
          response (handle env st (get GET_acchistoryids))
            = reply 200 (PAcchistory (map (hydrate_AcchistoryId env)
                                          (acchistoryids st)))
          /\ (Forall (fun d => AcchistoryId.createdAt d <> None)
                     (acchistoryids st) ->
              response (handle env st (get GET_acchistoryids))
                = reply 200 (PAcchistory (acchistoryids st)))
          /\ (acchistoryids st = [] ->
              response (handle env st (get GET_acchistoryids))
                = reply 200 (PAcchistory [])))
      /\ store (handle env st (get GET_acchistoryids)) = st)
  /\ ((forall msg, fault env (Find M_AcceptedIdCard) = Some msg ->
       response (handle env st (get GET_accepted_idcards))
         = reply 500 (PError msg))
      /\ (fault env (Find M_AcceptedIdCard) = None ->
          response (handle env st (get GET_accepted_idcards))
            = reply 200 (PAccepted (map (hydrate_AcceptedIdCard env)
                                        (acceptedidcards st)))
          /\ (Forall (fun d => AcceptedIdCard.status d <> None
                               /\ AcceptedIdCard.acceptedAt d <> None)
                     (acceptedidcards st) ->
              response (handle env st (get GET_accepted_idcards))
                = reply 200 (PAccepted (acceptedidcards st)))
          /\ (acceptedidcards st = [] ->
              response (handle env st (get GET_accepted_idcards))
                = reply 200 (PAccepted [])))
      /\ store (handle env st (get GET_accepted_idcards)) = st).
Proof.
  intros E.
  destruct (printed_reads env st E) as [Sp Hp].
  destruct (acchistory_reads env st E) as [Sh Hh].
  destruct (accepted_reads env st E) as [Sa Ha].
  split; [| split].
  - split; [| split; [| exact Sp]].
    + intros msg F. rewrite F in Hp. exact Hp.
    + intros F. rewrite F in Hp. split; [exact Hp |]. split.
      * intros C. rewrite Hp. now rewrite hydrate_PrintId_complete.
      * intros N. rewrite Hp, N. reflexivity.
  - split; [| split; [| exact Sh]].
    + intros msg F. rewrite F in Hh. exact Hh.
    + intros F. rewrite F in Hh. split; [exact Hh |]. split.
      * intros C. rewrite Hh. now rewrite hydrate_AcchistoryId_complete.
      * intros N. rewrite Hh, N. reflexivity.
  - split; [| split; [| exact Sa]].
    + intros msg F. rewrite F in Ha. exact Ha.
    + intros F. rewrite F in Ha. split; [exact Ha |]. split.
      * intros C. rewrite Ha. now rewrite hydrate_AcceptedIdCard_complete.
      * intros N. rewrite Ha, N. reflexivity.
Qed.

Lemma read_endpoints_list_hydrated_collection_witness :
  response (handle (calm 1900%Z 7)
              (ready_store [print_request 1 "R1"; bare_print_request 2] [] [])
              (get GET_printed))
    = reply 200 (PPrinted [print_request 1 "R1";
                           hydrate_PrintId (calm 1900%Z 7)
                             (bare_print_request 2)])
  /\ response (handle (calm 1900%Z 7)
                 (ready_store [print_request 1 "R1"; print_request 2 "R2"] [] [])
                 (get GET_printed))
     = reply 200 (PPrinted [print_request 1 "R1"; print_request 2 "R2"])
  /\ response (handle (calm 1900%Z 7)
                 (ready_store [print_request 1 "R1"] [] [])
                 (get GET_acchistoryids))
     = reply 200 (PAcchistory [])
  /\ response (handle (failing 0%Z 7 (Find M_AcceptedIdCard) "socket closed")
                 (ready_store [] [] []) (get GET_accepted_idcards))
     = reply 500 (PError "socket closed").
Proof.
  split; [| split; [| split]].
  - apply (read_endpoints_list_hydrated_collection (calm 1900%Z 7)
             (ready_store [print_request 1 "R1"; bare_print_request 2] [] [])
             eq_refl).
    reflexivity.
  - apply (read_endpoints_list_hydrated_collection (calm 1900%Z 7)
             (ready_store [print_request 1 "R1"; print_request 2 "R2"] [] [])
             eq_refl).
    + reflexivity.
    + repeat constructor; simpl; discriminate.
  - apply (read_endpoints_list_hydrated_collection (calm 1900%Z 7)
             (ready_store [print_request 1 "R1"] [] []) eq_refl);
      reflexivity.
  - apply (read_endpoints_list_hydrated_collection
             (failing 0%Z 7 (Find M_AcceptedIdCard) "socket closed")
             (ready_store [] [] []) eq_refl).
    reflexivity.
Defined.

(** ** Login *)

Lemma login_ready env st b :
  readyState st = 1 ->
  fault env (FindOne M_AdminId) = None ->
  response (handle env st (request POST_login b))
  = match find (fun d => matches_path (Body.adminId b) (AdminId.adminid d))
               (adminids st) with
    | Some _ => reply 200 (PLogin true None)
    | None => reply 401 (PLogin false (Some "Invalid admin ID"))
    end.
Proof.
  intros E F. rewrite (handle_ready _ _ _ E). unfold route. simpl.
  unfold login, findOne. rewrite F.
  destruct (find _ (adminids st)); reflexivity.
Qed.


(** X13: when the body supplies [adminId], login answers 200
    [{success: true}] exactly when some admin document holds that very string,
    and 401 otherwise. *)
Lemma login_supplied_adminId env st b a :
  readyState st = 1 ->
  fault env (FindOne M_AdminId) = None ->
  Body.adminId b = Some a ->
  (response (handle env st (request POST_login b)) = reply 200 (PLogin true None)
   <-> exists d, In d (adminids st) /\ AdminId.adminid d = Some a)
  /\ ((forall d, In d (adminids st) -> AdminId.adminid d <> Some a) ->
      response (handle env st (request POST_login b))
      = reply 401 (PLogin false (Some "Invalid admin ID"))).
Proof.
  intros E F A. rewrite (login_ready env st b E F). rewrite A.
  destruct (find _ (adminids st)) as [d |] eqn:Hf.
  - apply find_some in Hf. destruct Hf as [Hin Hm].
    assert (Hd : AdminId.adminid d = Some a).
    { simpl in Hm. destruct (AdminId.adminid d) as [f |]; [| discriminate].
      apply String.eqb_eq in Hm. now subst. }
    split.
    + split; [intros _; now exists d | reflexivity].
    + intros Hno. exfalso. exact (Hno d Hin Hd).
  - split; [| reflexivity].
    split; [discriminate |].
    intros [d [Hin Hd]].
    pose proof (find_none _ _ Hf d Hin) as Hm. simpl in Hm.
    rewrite Hd in Hm. rewrite String.eqb_refl in Hm. discriminate.
Qed.

Lemma matches_path_eq v field : matches_path v field = true <-> field = v.
Proof.
  unfold matches_path. destruct v as [s |], field as [f |]; split;
    try discriminate; try reflexivity.
  - intros H. apply String.eqb_eq in H. now subst.
  - intros H. injection H as ->. apply String.eqb_refl.
Qed.

Lemma login_found_iff env st b :
  readyState st = 1 ->
  fault env (FindOne M_AdminId) = None ->
  (response (handle env st (request POST_login b)) = reply 200 (PLogin true None)
   /\ exists d, In d (adminids st) /\ AdminId.adminid d = Body.adminId b)
  \/ (response (handle env st (request POST_login b))
        = reply 401 (PLogin false (Some "Invalid admin ID"))
      /\ forall d, In d (adminids st) -> AdminId.adminid d <> Body.adminId b).
Proof.
  intros E F. rewrite (login_ready env st b E F).
  destruct (find _ (adminids st)) as [d |] eqn:Hf.
  - left. split; [reflexivity |]. apply find_some in Hf.
    destruct Hf as [Hin Hm]. exists d. split; [exact Hin |].
    now apply matches_path_eq.
  - right. split; [reflexivity |]. intros d Hin Heq.
    pose proof (find_none _ _ Hf d Hin) as Hm. simpl in Hm.
    apply matches_path_eq in Heq. congruence.
Qed.



(** C9, as stated, fails: with two admin documents stored, a login whose body
    has no [adminId] is answered 401, not 200: the lookup finds nothing. *)
Lemma login_without_adminId_rejected :
  let st := ready_store [] [] [admin 4 "root"; admin 5 "ops"] in
  let b := login_body None in
  adminids st <> []
  /\ Body.adminId b = None
  /\ findOne (calm 0%Z 7) st (Body.adminId b) = Ok None
  /\ response (handle (calm 0%Z 7) st (request POST_login b))
     = reply 401 (PLogin false (Some "Invalid admin ID"))
  /\ response (handle (calm 0%Z 7) st (request POST_login b))
     <> reply 200 (PLogin true None).
Proof.
  repeat split; try discriminate.
Qed.

(** C9, amended: with the connection ready and the lookup not failing, a
    login whose body has no [adminId] looks for a document whose [adminid] is
    null or missing: it is answered 200 [{success: true}] exactly when such a
    document is stored (the first one is what the lookup returns), and 401
    when every admin document holds an [adminid], however many there are. *)
Theorem login_without_adminId_needs_blank_adminid env st b :
  readyState st = 1 ->
  fault env (FindOne M_AdminId) = None ->
  Body.adminId b = None ->
  (response (handle env st (request POST_login b)) = reply 200 (PLogin true None)
   <-> exists d, In d (adminids st) /\ AdminId.adminid d = None)
  /\ ((forall d, In d (adminids st) -> AdminId.adminid d <> None) ->
      response (handle env st (request POST_login b))
      = reply 401 (PLogin false (Some "Invalid admin ID")))
  /\ findOne env st (Body.adminId b)
     = Ok (option_map AdminId._id
             (find (fun d => match AdminId.adminid d with
                             | None => true
                             | Some _ => false
                             end) (adminids st))).
Proof.
  intros E F A.
  split; [| split].
  - destruct (login_found_iff env st b E F) as [[Hr Hex] | [Hr Hno]];
      rewrite A in *.
    + split; [intros _; exact Hex | intros _; exact Hr].
    + split.
      * rewrite Hr. discriminate.
      * intros (d & Hin & Hd). exfalso. exact (Hno d Hin Hd).
  - intros Hall.
    destruct (login_found_iff env st b E F) as [[_ Hex] | [Hr _]];
      [| exact Hr].
    rewrite A in Hex. destruct Hex as (d & Hin & Hd).
    exfalso. exact (Hall d Hin Hd).
  - unfold findOne. rewrite F, A. reflexivity.
Qed.

Lemma login_without_adminId_needs_blank_adminid_witness :
  response (handle (calm 0%Z 7)
              (ready_store [] []
                 [admin 4 "root";
                  {| AdminId._id := 5; AdminId.adminid := None |}])
              (request POST_login (login_body None)))
    = reply 200 (PLogin true None)
  /\ response (handle (calm 0%Z 7)
                 (ready_store [] [] [admin 4 "root"; admin 5 "ops"])
                 (request POST_login (login_body None)))
     = reply 401 (PLogin false (Some "Invalid admin ID")).
Proof.
  split.
  - apply (login_without_adminId_needs_blank_adminid (calm 0%Z 7)
             (ready_store [] []
                [admin 4 "root";
                 {| AdminId._id := 5; AdminId.adminid := None |}])
             (login_body None) eq_refl eq_refl eq_refl).
    eexists. split; [right; now left | reflexivity].
  - apply (login_without_adminId_needs_blank_adminid (calm 0%Z 7)
             (ready_store [] [] [admin 4 "root"; admin 5 "ops"])
             (login_body None) eq_refl eq_refl eq_refl).
    intros d [<- | [<- | []]]; simpl; discriminate.
Defined.

(** ** Accepting a request *)

Lemma filter_remove_first {D : Type} (p : D -> bool) (l : list D) :
  filter p (remove_first p l) = tl (filter p l).
Proof.
  induction l as [| d l IH]; simpl; [reflexivity |].
  destruct (p d) eqn:E; simpl.
  - reflexivity.
  - rewrite E. exact IH.
Qed.

Lemma remove_first_spec {D : Type} (p : D -> bool) (l : list D) :
  ((forall d, In d l -> p d = false) /\ remove_first p l = l)
  \/ (exists l1 d l2,
        l = l1 ++ d :: l2 /\ p d = true
        /\ (forall x, In x l1 -> p x = false)
        /\ remove_first p l = l1 ++ l2).
Proof.
  induction l as [| d l IH]; simpl.
  - left. split; [intros d [] | reflexivity].
  - destruct (p d) eqn:E.
    + right. exists [], d, l. repeat split; try assumption. intros x [].
    + destruct IH as [[Hall Heq] | (l1 & x & l2 & Hl & Hx & Hl1 & Heq)].
      * left. split; [| now rewrite Heq].
        intros y [<- | Hy]; [exact E | now apply Hall].
      * right. exists (d :: l1), x, l2. repeat split.
        -- now rewrite Hl.
        -- exact Hx.
        -- intros y [<- | Hy]; [exact E | now apply Hl1].
        -- now rewrite Heq.
Qed.

(** What an accept answered 201 went through, and what it left. *)
Lemma accept_success env st b :
  statusCode (response (accept env st b)) = 201 ->
  readyState st = 1
  /\ fault env (Save M_AcceptedIdCard) = None
  /\ fault env (DeleteOne M_PrintId) = None
  /\ save env st (new_AcceptedIdCard env b)
     = Ok (new_AcceptedIdCard env b,
           set_acceptedidcards st
             (acceptedidcards st ++ [new_AcceptedIdCard env b]))
  /\ accept env st b
     = respond L173 201 (PAcceptOk accepted_message (new_AcceptedIdCard env b))
         (set_printids
            (set_acceptedidcards st
               (acceptedidcards st ++ [new_AcceptedIdCard env b]))
            (remove_first
               (fun d => matches_path (Body.registerNumber b)
                                      (PrintId.registerNumber d))
               (printids st)))
         [Save M_AcceptedIdCard; DeleteOne M_PrintId].
Proof.
  unfold accept, handle.
  destruct (readyState st =? 1) eqn:E; simpl; [| discriminate].
  unfold route. simpl. unfold accept_idcard. rewrite E. simpl.
  unfold save. destruct (fault env (Save M_AcceptedIdCard)); [discriminate |].
  destruct (existsb _ (acceptedidcards st)); [discriminate |].
  unfold deleteOne. destruct (fault env (DeleteOne M_PrintId)); [discriminate |].
  intros _. apply Nat.eqb_eq in E. repeat split. exact E.
Qed.

Lemma entry_In_intro k v o : o = Some v -> In (k, v) (entry k o).
Proof.
  intros ->. now left.
Qed.

Lemma entry_In_inv k v k' o : In (k, v) (entry k' o) -> k = k' /\ o = Some v.
Proof.
  destruct o as [x |]; simpl; [| intros []].
  intros [H | []]. injection H as -> ->. now split.
Qed.

(** C7, as stated, fails: the stored card is not the request body verbatim.
    A body key outside [acceptedIdCardSchema] (here [adminId]) is left out of
    the stored card and of the [data] returned. *)
Lemma accept_drops_key_outside_schema :
  let b := with_adminId (accept_body "R1" None) "root" in
  let o := accept (calm 1700%Z 9) (ready_store [print_request 1 "R1"] [] []) b in
  exists saved,
    response o = reply 201 (PAcceptOk accepted_message saved)
    /\ acceptedidcards (store o) = [saved]
    /\ In ("adminId", VString "root") (body_entries b)
    /\ ~ In ("adminId", VString "root") (card_entries saved)
    /\ ~ stored_verbatim b saved.
Proof.
  eexists. split; [reflexivity |]. split; [reflexivity |].
  assert (Hin : In ("adminId", VString "root")
                   (body_entries (with_adminId (accept_body "R1" None) "root"))).
  { vm_compute. repeat (try (left; reflexivity); right). }
  assert (Hout : ~ In ("adminId", VString "root")
                     (card_entries
                        (new_AcceptedIdCard (calm 1700%Z 9)
                           (with_adminId (accept_body "R1" None) "root")))).
  { vm_compute. intros H.
    repeat (destruct H as [H | H]; [discriminate H |]). exact H. }
  split; [exact Hin |]. split; [exact Hout |].
  intros Hv. exact (Hout (Hv _ Hin)).
Qed.

(** C7, amended: an accept answered 201 stored, at the end of
    [acceptedidcards], a document that takes each path of
    [acceptedIdCardSchema] from the request body, a value of the path's
    declared type being stored as it is, [status] being
    "accepted" when the body has none and [acceptedAt] the current time when
    the body has none; a body key outside the schema is not stored and
    changes nothing; the response is 201 with the message and that saved
    document as [data]. *)
Theorem accept_stores_schema_paths_with_defaults env st b :
  statusCode (response (accept env st b)) = 201 ->
  exists saved,
    response (accept env st b)
      = reply 201 (PAcceptOk "ID card request accepted successfully" saved)
    /\ acceptedidcards (store (accept env st b)) = acceptedidcards st ++ [saved]
    /\ AcceptedIdCard.registerNumber saved = Body.registerNumber b
    /\ AcceptedIdCard.name saved = Body.name b
    /\ AcceptedIdCard.dob saved = Body.dob b
    /\ AcceptedIdCard.department saved = Body.department b
    /\ AcceptedIdCard.year saved = Body.year b
    /\ AcceptedIdCard.section saved = Body.section b
    /\ AcceptedIdCard.libraryCode saved = Body.libraryCode b
    /\ AcceptedIdCard.reason saved = Body.reason b
    /\ (forall s, Body.status b = Some s -> AcceptedIdCard.status saved = Some s)
    /\ (Body.status b = None -> AcceptedIdCard.status saved = Some "accepted")
    /\ (forall t, Body.acceptedAt b = Some t ->
          AcceptedIdCard.acceptedAt saved = Some t)
    /\ (Body.acceptedAt b = None ->
          AcceptedIdCard.acceptedAt saved = Some (now env))
    /\ (forall k v, In (k, v) (body_entries b) -> In k accepted_paths ->
          In (k, v) (card_entries saved))
    /\ (forall a, accept env st (with_adminId b a) = accept env st b).
Proof.
  intros H. destruct (accept_success env st b H) as (E & Fs & Fd & Hs & Heq).
  exists (new_AcceptedIdCard env b). rewrite Heq. simpl.
  do 14 (split; [first [reflexivity | intros ? ->; reflexivity
                       | intros ->; reflexivity] |]).
  split.
  - intros k v Hin Hk. unfold body_entries in Hin.
    rewrite !in_app_iff in Hin.
    unfold card_entries, new_AcceptedIdCard. simpl. right.
    rewrite !in_app_iff.
    repeat (destruct Hin as [Hin | Hin];
            [apply entry_In_inv in Hin; destruct Hin as [-> Hv] |]).
    + left. now apply entry_In_intro.
    + right; left. now apply entry_In_intro.
    + do 2 right; left. now apply entry_In_intro.
    + do 3 right; left. now apply entry_In_intro.
    + do 4 right; left. now apply entry_In_intro.
    + do 5 right; left. now apply entry_In_intro.
    + do 6 right; left. now apply entry_In_intro.
    + do 7 right; left. now apply entry_In_intro.
    + do 8 right; left.
      destruct (Body.status b); [| discriminate].
      simpl in Hv. injection Hv as <-. simpl. auto.
    + do 9 right.
      destruct (Body.acceptedAt b); [| discriminate].
      simpl in Hv. injection Hv as <-. simpl. auto.
    + apply entry_In_inv in Hin. destruct Hin as [-> _].
      simpl in Hk.
      repeat (destruct Hk as [Hk | Hk]; [discriminate Hk |]). destruct Hk.
  - intros a. rewrite <- Heq. reflexivity.
Qed.

Lemma accept_stores_schema_paths_with_defaults_witness :
  exists saved,
    response (accept (calm 1700%Z 9) (ready_store [print_request 1 "R1"] [] [])
                (accept_body "R1" None))
      = reply 201 (PAcceptOk "ID card request accepted successfully" saved)
    /\ acceptedidcards
         (store (accept (calm 1700%Z 9)
                   (ready_store [print_request 1 "R1"] [] [])
                   (accept_body "R1" None))) = [] ++ [saved]
    /\ AcceptedIdCard.registerNumber saved = Some "R1"
    /\ AcceptedIdCard.status saved = Some "accepted"
    /\ AcceptedIdCard.acceptedAt saved = Some 1700%Z
    /\ In ("name", VString "A") (card_entries saved).
Proof.
  destruct (accept_stores_schema_paths_with_defaults (calm 1700%Z 9)
              (ready_store [print_request 1 "R1"] [] [])
              (accept_body "R1" None) eq_refl)
    as (saved & H1 & H2 & H3 & _ & _ & _ & _ & _ & _ & _ & _ & H4 & _ & H5
        & H6 & _).
  exists saved.
  split; [exact H1 |]. split; [exact H2 |]. split; [exact H3 |].
  split; [exact (H4 eq_refl) |]. split; [exact (H5 eq_refl) |].
  apply H6.
  - vm_compute. right; now left.
  - vm_compute. right; now left.
Defined.

(** C5: the accept handler issues the insert before the delete (its storage
    operations are a prefix of save, deleteOne, and the delete runs on the
    store the insert produced); once the insert has succeeded the saved
    document is in [acceptedidcards] whatever the delete does, and when the
    delete throws the response is 500 with its message, the insert is kept and
    the print requests are untouched. *)
Theorem accept_inserts_before_deleting env st b :
  readyState st = 1 ->
  (ops (accept env st b) = [Save M_AcceptedIdCard]
   \/ ops (accept env st b) = [Save M_AcceptedIdCard; DeleteOne M_PrintId])
  /\ (forall saved st1,
        save env st (new_AcceptedIdCard env b) = Ok (saved, st1) ->
        In saved (acceptedidcards (store (accept env st b)))
        /\ ops (accept env st b) = [Save M_AcceptedIdCard; DeleteOne M_PrintId]
        /\ match deleteOne env st1 (Body.registerNumber b) with
           | Ok st2 => store (accept env st b) = st2
           | Threw msg =>
               response (accept env st b) = reply 500 (PError msg)
               /\ store (accept env st b) = st1
               /\ acceptedidcards st1 = acceptedidcards st ++ [saved]
               /\ printids st1 = printids st
           end)
  /\ (forall msg,
        save env st (new_AcceptedIdCard env b) = Threw msg ->
        response (accept env st b) = reply 500 (PError msg)
        /\ store (accept env st b) = st).
Proof.
  intros E. unfold accept. rewrite (handle_ready _ _ _ E).
  unfold route. simpl. unfold accept_idcard. rewrite E. simpl.
  destruct (save env st (new_AcceptedIdCard env b)) as [[c s1] | m] eqn:Hs.
  - assert (Hc : acceptedidcards s1 = acceptedidcards st ++ [c]
                 /\ printids s1 = printids st).
    { unfold save in Hs. destruct (fault env (Save _)); [discriminate |].
      destruct (existsb _ _); [discriminate |].
      injection Hs as <- <-. split; reflexivity. }
    destruct Hc as [Hc Hp].
    split; [| split].
    + right. destruct (deleteOne env s1 _); reflexivity.
    + intros saved st1 Heq. injection Heq as <- <-.
      unfold deleteOne. destruct (fault env (DeleteOne M_PrintId)); simpl.
      * repeat split; try assumption.
        rewrite Hc. apply in_or_app. right. now left.
      * repeat split.
        rewrite Hc. apply in_or_app. right. now left.
    + intros msg Heq. discriminate.
  - split; [| split].
    + left. reflexivity.
    + intros saved st1 Heq. discriminate.
    + intros msg Heq. injection Heq as <-. split; reflexivity.
Qed.

Lemma accept_inserts_before_deleting_witness :
  In (new_AcceptedIdCard
        (failing 1700%Z 9 (DeleteOne M_PrintId) "connection reset")
        (accept_body "R1" None))
     (acceptedidcards
        (store (accept (failing 1700%Z 9 (DeleteOne M_PrintId) "connection reset")
                  (ready_store [print_request 1 "R1"] [] [])
                  (accept_body "R1" None))))
  /\ ops (accept (failing 1700%Z 9 (DeleteOne M_PrintId) "connection reset")
            (ready_store [print_request 1 "R1"] [] [])
            (accept_body "R1" None))
     = [Save M_AcceptedIdCard; DeleteOne M_PrintId]
  /\ response (accept (failing 1700%Z 9 (DeleteOne M_PrintId) "connection reset")
                 (ready_store [print_request 1 "R1"] [] [])
                 (accept_body "R1" None))
     = reply 500 (PError "connection reset")
  /\ printids
       (store (accept (failing 1700%Z 9 (DeleteOne M_PrintId) "connection reset")
                 (ready_store [print_request 1 "R1"] [] [])
                 (accept_body "R1" None)))
     = [print_request 1 "R1"].
Proof.
  destruct (accept_inserts_before_deleting
              (failing 1700%Z 9 (DeleteOne M_PrintId) "connection reset")
              (ready_store [print_request 1 "R1"] [] [])
              (accept_body "R1" None) eq_refl) as (_ & H & _).
  destruct (H _ _ eq_refl) as (H1 & H2 & H3).
  simpl in H3. destruct H3 as (H3 & H4 & _ & _).
  split; [exact H1 |]. split; [exact H2 |]. split; [exact H3 |].
  exact (f_equal printids H4).
Defined.

(** C6, as stated, fails: with two print requests for "R1", a successful
    accept of "R1" leaves the second one in [printids]. *)
Lemma accept_leaves_second_matching_print_request :
  let st := ready_store [print_request 1 "R1"; print_request 2 "R1"] [] [] in
  let o := accept (calm 1700%Z 9) st (accept_body "R1" None) in
  statusCode (response o) = 201
  /\ printids (store o) = [print_request 2 "R1"]
  /\ ~ all_matching_deleted "R1" (store o).
Proof.
  split; [reflexivity |]. split; [reflexivity |].
  unfold all_matching_deleted. vm_compute. discriminate.
Qed.

(** C6, amended: a successful accept whose body has register number [r]
    deletes at most one print request, the first in collection order whose
    [registerNumber] is [r]: with no such document [printids] is unchanged,
    and otherwise every other document, matching or not, stays; the outcome
    does not depend on how many documents match. *)
Theorem accept_deletes_first_matching_print_request env st b r :
  Body.registerNumber b = Some r ->
  statusCode (response (accept env st b)) = 201 ->
  (((forall d, In d (printids st) ->
       matches_path (Some r) (PrintId.registerNumber d) = false)
    /\ printids (store (accept env st b)) = printids st)
   \/ (exists l1 d l2,
         printids st = l1 ++ d :: l2
         /\ PrintId.registerNumber d = Some r
         /\ (forall x, In x l1 ->
               matches_path (Some r) (PrintId.registerNumber x) = false)
         /\ printids (store (accept env st b)) = l1 ++ l2))
  /\ printed_with r (printids (store (accept env st b)))
     = tl (printed_with r (printids st))
  /\ (forall prints,
        statusCode (response (accept env (set_printids st prints) b)) = 201).
Proof.
  intros R H. destruct (accept_success env st b H) as (E & Fs & Fd & Hs & Heq).
  rewrite Heq. simpl. rewrite R.
  split; [| split].
  - destruct (remove_first_spec
                (fun d => matches_path (Some r) (PrintId.registerNumber d))
                (printids st))
      as [[Hall Hrm] | (l1 & d & l2 & Hl & Hd & Hl1 & Hrm)].
    + left. split; assumption.
    + right. exists l1, d, l2. repeat split; try assumption.
      simpl in Hd. destruct (PrintId.registerNumber d) as [f |]; [| discriminate].
      apply String.eqb_eq in Hd. now subst.
  - unfold printed_with. apply filter_remove_first.
  - intros prints. unfold accept.
    rewrite handle_ready by exact E.
    unfold route. simpl. unfold accept_idcard. simpl. rewrite E. simpl.
    unfold save in *. rewrite Fs in *. simpl.
    destruct (existsb _ (acceptedidcards st)); [discriminate |].
    unfold deleteOne. rewrite Fd. reflexivity.
Qed.

Lemma accept_deletes_first_matching_print_request_witness :
  printids
    (store (accept (calm 1700%Z 9)
              (ready_store [print_request 1 "R2"; print_request 2 "R1";
                            print_request 3 "R1"] [] [])
              (accept_body "R1" None)))
  = [print_request 1 "R2"; print_request 3 "R1"]
  /\ printed_with "R1"
       (printids
          (store (accept (calm 1700%Z 9)
                    (ready_store [print_request 1 "R2"; print_request 2 "R1";
                                  print_request 3 "R1"] [] [])
                    (accept_body "R1" None))))
     = tl (printed_with "R1"
             [print_request 1 "R2"; print_request 2 "R1"; print_request 3 "R1"]).
Proof.
  split; [reflexivity |].
  apply (accept_deletes_first_matching_print_request (calm 1700%Z 9)
           (ready_store [print_request 1 "R2"; print_request 2 "R1";
                         print_request 3 "R1"] [] [])
           (accept_body "R1" None) "R1" eq_refl eq_refl).
Defined.

(** C1, as stated, fails in three ways, each after a successful accept of
    "R100": accepted a second time, "R100" is listed twice; a body that brings
    its own status is stored with that status; of two print requests for
    "R100" one is still listed. *)
Lemma accept_R100_not_listed_once :
  (let o1 := accept (calm 1700%Z 9) (ready_store [print_request 1 "R100"] [] [])
               (accept_body "R100" None) in
   let o2 := accept (calm 1800%Z 10) (store o1) (accept_body "R100" None) in
   statusCode (response o1) = 201 /\ statusCode (response o2) = 201
   /\ ~ accepted_once_and_unprinted "R100" (store o2)
          (calm 1900%Z 11) (calm 1900%Z 11))
  /\ (let o := accept (calm 1700%Z 9)
                 (ready_store [print_request 1 "R100"] [] [])
                 (accept_body "R100" (Some "rejected")) in
      statusCode (response o) = 201
      /\ ~ accepted_once_and_unprinted "R100" (store o)
             (calm 1900%Z 11) (calm 1900%Z 11))
  /\ (let o := accept (calm 1700%Z 9)
                 (ready_store [print_request 1 "R100"; print_request 2 "R100"]
                    [] [])
                 (accept_body "R100" None) in
      statusCode (response o) = 201
      /\ ~ accepted_once_and_unprinted "R100" (store o)
             (calm 1900%Z 11) (calm 1900%Z 11)).
Proof.
  split; [| split].
  - split; [reflexivity |]. split; [reflexivity |].
    intros (cards & prints & d & H1 & _ & H3 & _).
    vm_compute in H1. injection H1 as <-.
    vm_compute in H3. discriminate.
  - split; [reflexivity |].
    intros (cards & prints & d & H1 & _ & H3 & H4 & _).
    vm_compute in H1. injection H1 as <-.
    vm_compute in H3. injection H3 as <-.
    vm_compute in H4. discriminate.
  - split; [reflexivity |].
    intros (cards & prints & d & _ & H2 & _ & _ & H5).
    vm_compute in H2. injection H2 as <-.
    vm_compute in H5. discriminate.
Qed.

(** C1, amended: after a successful accept whose body has register number
    [r] and no status (or the status "accepted"), made when no accepted
    document with [r] is stored yet and at most one print request has [r], a
    following GET /api/accepted-idcards and GET /api/printed whose reads do
    not fail list exactly one accepted document with [r], of status
    "accepted", and no print request with [r]. *)
Theorem accept_then_listed_once r env st b env1 env2 :
  Body.registerNumber b = Some r ->
  Body.status b = None \/ Body.status b = Some "accepted" ->
  accepted_with r (acceptedidcards st) = [] ->
  length (printed_with r (printids st)) <= 1 ->
  statusCode (response (accept env st b)) = 201 ->
  fault env1 (Find M_AcceptedIdCard) = None ->
  fault env2 (Find M_PrintId) = None ->
  accepted_once_and_unprinted r (store (accept env st b)) env1 env2.
Proof.
  intros R S A P H F1 F2.
  destruct (accept_success env st b H) as (E & _ & _ & _ & Heq).
  rewrite Heq. simpl. unfold accepted_once_and_unprinted.
  set (st' := set_printids _ _).
  assert (E' : readyState st' = 1) by exact E.
  destruct (accepted_reads env1 st' E') as [Hst Hr1]. rewrite F1 in Hr1.
  cbv zeta. rewrite Hst.
  destruct (printed_reads env2 st' E') as [_ Hr2]. rewrite F2 in Hr2.
  exists (map (hydrate_AcceptedIdCard env1) (acceptedidcards st')),
    (map (hydrate_PrintId env2) (printids st')), (new_AcceptedIdCard env b).
  split; [exact Hr1 |]. split; [exact Hr2 |].
  subst st'. simpl. rewrite R.
  split; [| split].
  - rewrite accepted_with_hydrate. unfold accepted_with in *.
    rewrite filter_app, A. simpl.
    rewrite R. rewrite String.eqb_refl. reflexivity.
  - destruct S as [-> | ->]; reflexivity.
  - rewrite printed_with_hydrate. unfold printed_with in *.
    rewrite filter_remove_first.
    destruct (filter _ (printids st)) as [| x [| y l]]; simpl in *;
      [reflexivity | reflexivity | lia].
Qed.

Lemma accept_then_listed_once_witness :
  accepted_once_and_unprinted "R100"
    (store (accept (calm 1700%Z 9)
              (ready_store [print_request 1 "R7"; print_request 2 "R100"] [] [])
              (accept_body "R100" None)))
    (calm 1900%Z 11) (calm 1900%Z 11).
Proof.
  apply (accept_then_listed_once "R100" (calm 1700%Z 9)
           (ready_store [print_request 1 "R7"; print_request 2 "R100"] [] [])
           (accept_body "R100" None) (calm 1900%Z 11) (calm 1900%Z 11)).
  - reflexivity.
  - left. reflexivity.
  - reflexivity.
  - vm_compute. lia.
  - reflexivity.
  - reflexivity.
  - reflexivity.
Defined.

(** The end-to-end example of the specification: accepting "R1" while a print
    request for "R1" exists answers 201 with [data.status] "accepted", and
    GET /api/printed then lists nothing. *)
Example accept_R1_end_to_end :
  let o := accept (calm 1700%Z 9) (ready_store [print_request 1 "R1"] [] [])
             (accept_body "R1" None) in
  response o
    = reply 201 (PAcceptOk accepted_message
                   (new_AcceptedIdCard (calm 1700%Z 9) (accept_body "R1" None)))
  /\ AcceptedIdCard.status (new_AcceptedIdCard (calm 1700%Z 9)
                              (accept_body "R1" None)) = Some "accepted"
  /\ response (handle (calm 1800%Z 10) (store o) (get GET_printed))
     = reply 200 (PPrinted []).
Proof.
  repeat split.
Qed.

(** The store refuses a second document with an [_id] it already holds: the
    accept is answered 500 and nothing is deleted. *)
Example accept_duplicate_id_rejected :
  let o1 := accept (calm 1700%Z 9) (ready_store [print_request 1 "R1"] [] [])
              (accept_body "R1" None) in
  let o2 := accept (calm 1800%Z 9) (store o1) (accept_body "R1" None) in
  response o2 = reply 500 (PError duplicate_key)
  /\ store o2 = store o1
  /\ ops o2 = [Save M_AcceptedIdCard].
Proof.
  repeat split.
Qed.

(** ** What a request can do to the store *)

Ltac unfold_handlers :=
  unfold route, printed, acchistory, accepted_idcards, accept_idcard, login,
    healthz, find_all, save, deleteOne, findOne in *.

(** A request leaves the store as it was, unless it is an accept that got past
    the insert: then the new card is appended, and the first matching print
    request is removed when the delete went through as well. *)
Lemma handle_store_cases env st req :
  store (handle env st req) = st
  \/ (endpoint req = POST_accept_idcard
      /\ readyState st = 1
      /\ ((statusCode (response (handle env st req)) = 500
           /\ store (handle env st req)
              = set_acceptedidcards st
                  (acceptedidcards st ++ [new_AcceptedIdCard env (body req)]))
          \/ (statusCode (response (handle env st req)) = 201
              /\ store (handle env st req)
                 = set_printids
                     (set_acceptedidcards st
                        (acceptedidcards st
                           ++ [new_AcceptedIdCard env (body req)]))
                     (remove_first
                        (fun d => matches_path (Body.registerNumber (body req))
                                               (PrintId.registerNumber d))
                        (printids st))))).
Proof.
  unfold handle.
  destruct (readyState st =? 1) eqn:E; simpl; [| now left].
  unfold_handlers.
  destruct (endpoint req) eqn:Hep; simpl; try (now left).
  - destruct (fault env _); now left.
  - destruct (fault env _); now left.
  - destruct (fault env _); now left.
  - rewrite E. simpl.
    destruct (fault env (Save M_AcceptedIdCard)); [now left |].
    destruct (existsb _ (acceptedidcards st)); [now left |].
    right. split; [reflexivity |]. split; [now apply Nat.eqb_eq |].
    destruct (fault env (DeleteOne M_PrintId)); simpl.
    + left. split; reflexivity.
    + right. split; reflexivity.
  - destruct (fault env _); [now left |].
    destruct (option_map _ _); now left.
Qed.

Lemma remove_first_incl {D : Type} (p : D -> bool) (l : list D) :
  incl (remove_first p l) l.
Proof.
  induction l as [| d l IH]; simpl; [easy |].
  destruct (p d).
  - apply incl_tl, incl_refl.
  - intros x [<- | Hx]; [now left | right; now apply IH].
Qed.

Lemma remove_first_length {D : Type} (p : D -> bool) (l : list D) :
  length (remove_first p l) = length l - (if existsb p l then 1 else 0).
Proof.
  induction l as [| d l IH]; simpl; [reflexivity |].
  destruct (p d) eqn:E; simpl.
  - lia.
  - rewrite IH. destruct (existsb p l) eqn:Ex; [| lia].
    destruct l as [| x l']; [discriminate |]. simpl. lia.
Qed.

(** X1: only POST /api/accept-idcard writes: any other request, whatever the
    ready state, the body and the failures of the driver, leaves every
    collection as it was. *)
Theorem only_accept_writes env st req :
  endpoint req <> POST_accept_idcard ->
  store (handle env st req) = st.
Proof.
  intros N. destruct (handle_store_cases env st req) as [H | (H & _)].
  - exact H.
  - contradiction.
Qed.

Lemma only_accept_writes_witness :
  store (handle (failing 0%Z 7 (FindOne M_AdminId) "timeout")
           (ready_store [print_request 1 "R1"] [] [admin 1 "admin1"])
           (request POST_login (accept_body "R1" None)))
  = ready_store [print_request 1 "R1"] [] [admin 1 "admin1"].
Proof.
  apply only_accept_writes. simpl. discriminate.
Defined.

Lemma handle_frame env st req :
  readyState (store (handle env st req)) = readyState st
  /\ acchistoryids (store (handle env st req)) = acchistoryids st
  /\ adminids (store (handle env st req)) = adminids st.
Proof.
  destruct (handle_store_cases env st req)
    as [-> | (_ & _ & [[_ ->] | [_ ->]])]; repeat split.
Qed.

(** X2: no sequence of requests changes the connection's ready state, the
    acceptance history or the admin identifiers: the service has no write path
    to [acchistoryids] and [adminids]. *)
Theorem history_and_admins_never_written reqs st :
  readyState (run st reqs) = readyState st
  /\ acchistoryids (run st reqs) = acchistoryids st
  /\ adminids (run st reqs) = adminids st.
Proof.
  revert st. induction reqs as [| [env req] rest IH]; intros st; simpl.
  - repeat split.
  - destruct (IH (store (handle env st req))) as (H1 & H2 & H3).
    destruct (handle_frame env st req) as (F1 & F2 & F3).
    rewrite H1, H2, H3. repeat split; assumption.
Qed.



Lemma handle_printids_step env st req :
  incl (printids (store (handle env st req))) (printids st)
  /\ length (printids (store (handle env st req))) <= length (printids st)
  /\ length (printids st) <= length (printids (store (handle env st req))) + 1.
Proof.
  destruct (handle_store_cases env st req)
    as [-> | (_ & _ & [[_ ->] | [_ ->]])]; simpl.
  - repeat split; [apply incl_refl | lia | lia].
  - repeat split; [apply incl_refl | lia | lia].
  - repeat split.
    + apply remove_first_incl.
    + rewrite remove_first_length. lia.
    + rewrite remove_first_length. destruct (existsb _ _); lia.
Qed.

(** X4: print requests are never created or altered by the service.  Over any
    sequence of requests every document left in [printids] was there before,
    and at most one document per request has gone. *)
Theorem print_requests_only_shrink reqs st :
  incl (printids (run st reqs)) (printids st)
  /\ length (printids (run st reqs)) <= length (printids st)
  /\ length (printids st) <= length (printids (run st reqs)) + length reqs.
Proof.
  revert st. induction reqs as [| [env req] rest IH]; intros st; simpl.
  - repeat split; [apply incl_refl | lia | lia].
  - destruct (IH (store (handle env st req))) as (I2 & A2 & B2).
    destruct (handle_printids_step env st req) as (I1 & A1 & B1).
    repeat split.
    + eapply incl_tran; eassumption.
    + lia.
    + lia.
Qed.

(** ** Status codes and error payloads *)

(** X5: 503 is the gate's answer and nobody else's.  A request is answered
    503 exactly when the connection is not ready, and then, whatever its
    endpoint (the health check and unknown routes included), with the gate's
    payload and without touching the store. *)
Theorem unavailable_iff_not_ready env st req :
  (statusCode (response (handle env st req)) = 503 <-> readyState st <> 1)
  /\ (readyState st <> 1 ->
      handle env st req = respond L119 503 (PError gate_message) st []).
Proof.
  split; [| apply handle_not_ready].
  split.
  - intros H E. rewrite (handle_ready env st req E) in H.
    unfold_handlers. rewrite E in H. simpl in H.
    destruct (endpoint req); simpl in H; try discriminate;
      repeat (match type of H with
              | context [match ?x with _ => _ end] => destruct x
              end; simpl in H; try discriminate).
  - intros N. rewrite (handle_not_ready env st req N). reflexivity.
Qed.

Lemma unavailable_iff_not_ready_witness :
  handle (calm 0%Z 7) (empty_store 3) (request Unrouted Body.empty)
  = respond L119 503 (PError gate_message) (empty_store 3) [].
Proof.
  apply (unavailable_iff_not_ready (calm 0%Z 7) (empty_store 3)
           (request Unrouted Body.empty)).
  simpl. discriminate.
Defined.

(** X6: the status codes of the service.  Every response has one of six
    codes; 201 is sent only for an accept, 401 only for a login, 404 only for
    a request no route matches, and 200 never for an accept. *)
Theorem status_code_table env st req :
  In (statusCode (response (handle env st req))) [200; 201; 401; 404; 500; 503]
  /\ (statusCode (response (handle env st req)) = 201 ->
      endpoint req = POST_accept_idcard)
  /\ (statusCode (response (handle env st req)) = 401 ->
      endpoint req = POST_login)
  /\ (statusCode (response (handle env st req)) = 404 ->
      endpoint req = Unrouted)
  /\ (statusCode (response (handle env st req)) = 200 ->
      endpoint req <> POST_accept_idcard).
Proof.
  unfold handle.
  destruct (readyState st =? 1) eqn:E; simpl.
  - unfold_handlers. rewrite E. simpl.
    destruct (endpoint req); simpl;
      repeat (match goal with
              | |- context [match ?x with _ => _ end] => destruct x
              end; simpl);
      repeat split; try discriminate; try tauto.
  - repeat split; try discriminate; tauto.
Qed.

Lemma status_code_table_witness :
  statusCode (response (handle (calm 0%Z 7)
                          (ready_store [] [] [admin 1 "admin1"])
                          (request POST_login (login_body (Some "nobody")))))
  = 401
  /\ endpoint (request POST_login (login_body (Some "nobody"))) = POST_login.
Proof.
  split; [reflexivity |].
  apply (status_code_table (calm 0%Z 7)
           (ready_store [] [] [admin 1 "admin1"])
           (request POST_login (login_body (Some "nobody")))).
  reflexivity.
Defined.

(** X7: a 500 response carries the error as it came.  Its payload is
    [{error: msg}] where [msg] is the message thrown by a storage operation
    the handler issued, or the store's duplicate-key rejection of the
    insert. *)
Theorem server_error_carries_storage_message env st req :
  statusCode (response (handle env st req)) = 500 ->
  exists msg,
    payload (response (handle env st req)) = PError msg
    /\ ((exists op, In op (ops (handle env st req)) /\ fault env op = Some msg)
        \/ (msg = duplicate_key
            /\ ops (handle env st req) = [Save M_AcceptedIdCard])).
Proof.
  unfold handle.
  destruct (readyState st =? 1) eqn:E; simpl; [| discriminate].
  unfold_handlers. rewrite E. simpl.
  destruct (endpoint req); simpl; try discriminate.
  - destruct (fault env (Find M_PrintId)) as [m |] eqn:F; simpl;
      [| discriminate].
    intros _. exists m. split; [reflexivity |]. left. eexists. split; [now left | exact F].
  - destruct (fault env (Find M_AcchistoryId)) as [m |] eqn:F; simpl;
      [| discriminate].
    intros _. exists m. split; [reflexivity |]. left. eexists. split; [now left | exact F].
  - destruct (fault env (Find M_AcceptedIdCard)) as [m |] eqn:F; simpl;
      [| discriminate].
    intros _. exists m. split; [reflexivity |]. left. eexists. split; [now left | exact F].
  - destruct (fault env (Save M_AcceptedIdCard)) as [m |] eqn:F; simpl.
    { intros _. exists m. split; [reflexivity |]. left. eexists.
      split; [now left | exact F]. }
    destruct (existsb _ (acceptedidcards st)); simpl.
    { intros _. exists duplicate_key. split; [reflexivity |]. right. now split. }
    destruct (fault env (DeleteOne M_PrintId)) as [m |] eqn:F'; simpl;
      [| discriminate].
    intros _. exists m. split; [reflexivity |]. left. eexists.
    split; [right; now left | exact F'].
  - destruct (fault env (FindOne M_AdminId)) as [m |] eqn:F; simpl.
    { intros _. exists m. split; [reflexivity |]. left. eexists.
      split; [now left | exact F]. }
    destruct (option_map _ _); simpl; discriminate.
Qed.

Lemma server_error_carries_storage_message_witness :
  exists msg,
    payload (response (handle (failing 0%Z 7 (DeleteOne M_PrintId) "pool destroyed")
                         (ready_store [print_request 1 "R1"] [] [])
                         (request POST_accept_idcard (accept_body "R1" None))))
    = PError msg
    /\ ((exists op,
           In op (ops (handle (failing 0%Z 7 (DeleteOne M_PrintId) "pool destroyed")
                         (ready_store [print_request 1 "R1"] [] [])
                         (request POST_accept_idcard (accept_body "R1" None))))
           /\ fault (failing 0%Z 7 (DeleteOne M_PrintId) "pool destroyed") op
              = Some msg)
        \/ (msg = duplicate_key
            /\ ops (handle (failing 0%Z 7 (DeleteOne M_PrintId) "pool destroyed")
                      (ready_store [print_request 1 "R1"] [] [])
                      (request POST_accept_idcard (accept_body "R1" None)))
               = [Save M_AcceptedIdCard])).
Proof.
  apply server_error_carries_storage_message. reflexivity.
Defined.

(** ** More on accepting and logging in *)

(** X8: accepts are not deduplicated.  Each accept answered 201 adds exactly
    one document to [acceptedidcards], and exactly one with the body's
    register number, however many such documents are stored already. *)
Theorem accept_adds_one_more_card env st b r :
  Body.registerNumber b = Some r ->
  statusCode (response (accept env st b)) = 201 ->
  length (acceptedidcards (store (accept env st b)))
    = S (length (acceptedidcards st))
  /\ length (accepted_with r (acceptedidcards (store (accept env st b))))
     = S (length (accepted_with r (acceptedidcards st))).
Proof.
  intros R H. destruct (accept_success env st b H) as (_ & _ & _ & _ & Heq).
  rewrite Heq. simpl. unfold accepted_with.
  rewrite filter_app, !length_app. simpl. rewrite R, String.eqb_refl.
  simpl. lia.
Qed.

Lemma accept_adds_one_more_card_witness :
  let o1 := accept (calm 1700%Z 9) (ready_store [] [] [])
              (accept_body "R5" None) in
  length (accepted_with "R5"
            (acceptedidcards
               (store (accept (calm 1800%Z 10) (store o1)
                         (accept_body "R5" None)))))
  = S (length (accepted_with "R5" (acceptedidcards (store o1)))).
Proof.
  apply (accept_adds_one_more_card (calm 1800%Z 10)
           (store (accept (calm 1700%Z 9) (ready_store [] [] [])
                     (accept_body "R5" None)))
           (accept_body "R5" None) "R5"); reflexivity.
Defined.

(** X9: an accept answered 201 for register number [r] shortens [printids] by
    one when some print request has [r], and leaves its length alone when
    none has: accepting a request that was never pending still succeeds. *)
Theorem accept_removes_one_if_pending env st b r :
  Body.registerNumber b = Some r ->
  statusCode (response (accept env st b)) = 201 ->
  (printed_with r (printids st) <> [] ->
   S (length (printids (store (accept env st b)))) = length (printids st))
  /\ (printed_with r (printids st) = [] ->
      printids (store (accept env st b)) = printids st).
Proof.
  intros R H. destruct (accept_success env st b H) as (_ & _ & _ & _ & Heq).
  rewrite Heq. simpl. rewrite R. unfold printed_with.
  set (p := fun d => matches_path (Some r) (PrintId.registerNumber d)).
  split.
  - intros N. rewrite remove_first_length.
    destruct (existsb p (printids st)) eqn:Ex.
    + apply existsb_exists in Ex. destruct Ex as (x & Hx & _).
      destruct (printids st); [destruct Hx | simpl; lia].
    + exfalso. apply N.
      destruct (filter p (printids st)) as [| x l] eqn:Hf; [reflexivity |].
      assert (Hin : In x (filter p (printids st))) by (rewrite Hf; now left).
      apply filter_In in Hin. destruct Hin as [Hin Hp].
      assert (existsb p (printids st) = true)
        by (apply existsb_exists; now exists x).
      congruence.
  - intros Hnone.
    destruct (remove_first_spec p (printids st))
      as [[_ Hrm] | (l1 & d & l2 & Hl & Hd & _ & _)]; [exact Hrm |].
    exfalso.
    assert (Hin : In d (filter p (printids st))).
    { apply filter_In. split; [| exact Hd]. rewrite Hl.
      apply in_or_app. right. now left. }
    rewrite Hnone in Hin. destruct Hin.
Qed.

Lemma accept_removes_one_if_pending_witness :
  (S (length (printids
               (store (accept (calm 1700%Z 9)
                         (ready_store [print_request 1 "R1";
                                       print_request 2 "R2"] [] [])
                         (accept_body "R2" None)))))
   = length [print_request 1 "R1"; print_request 2 "R2"])
  /\ printids
       (store (accept (calm 1700%Z 9)
                 (ready_store [print_request 1 "R1"; print_request 2 "R2"] [] [])
                 (accept_body "R9" None)))
     = [print_request 1 "R1"; print_request 2 "R2"].
Proof.
  split.
  - apply (accept_removes_one_if_pending (calm 1700%Z 9)
             (ready_store [print_request 1 "R1"; print_request 2 "R2"] [] [])
             (accept_body "R2" None) "R2"); try reflexivity.
    vm_compute. discriminate.
  - apply (accept_removes_one_if_pending (calm 1700%Z 9)
             (ready_store [print_request 1 "R1"; print_request 2 "R2"] [] [])
             (accept_body "R9" None) "R9"); reflexivity.
Defined.

Lemma filter_remove_first_disjoint {D : Type} (p q : D -> bool) (l : list D) :
  (forall d, p d = true -> q d = false) ->
  filter q (remove_first p l) = filter q l.
Proof.
  intros Hd. induction l as [| d l IH]; simpl; [reflexivity |].
  destruct (p d) eqn:E; simpl.
  - now rewrite (Hd d E).
  - now rewrite IH.
Qed.

(** X10: an accept whose body has no [registerNumber] and is answered 201
    removes no print request that holds a register number: the delete looks
    for a request whose [registerNumber] is null or missing, so the listing
    for every register number is as before, [printids] is untouched when all
    requests hold one, and the card stored has no [registerNumber]. *)
Theorem accept_without_registerNumber_keeps_numbered_requests env st b :
  Body.registerNumber b = None ->
  statusCode (response (accept env st b)) = 201 ->
  (forall r, printed_with r (printids (store (accept env st b)))
             = printed_with r (printids st))
  /\ ((forall d, In d (printids st) -> PrintId.registerNumber d <> None) ->
      printids (store (accept env st b)) = printids st)
  /\ AcceptedIdCard.registerNumber (new_AcceptedIdCard env b) = None
  /\ In (new_AcceptedIdCard env b) (acceptedidcards (store (accept env st b))).
Proof.
  intros R H. destruct (accept_success env st b H) as (_ & _ & _ & _ & Heq).
  rewrite Heq. simpl. rewrite R.
  split; [| split; [| split]].
  - intros r. unfold printed_with. apply filter_remove_first_disjoint.
    intros d. simpl. destruct (PrintId.registerNumber d); [discriminate |].
    reflexivity.
  - intros Hall.
    destruct (remove_first_spec
                (fun d => matches_path None (PrintId.registerNumber d))
                (printids st))
      as [[_ Hrm] | (l1 & d & l2 & Hl & Hd & _ & _)]; [exact Hrm |].
    exfalso. apply (Hall d).
    + rewrite Hl. apply in_or_app. right. now left.
    + simpl in Hd. destruct (PrintId.registerNumber d);
        [discriminate | reflexivity].
  - reflexivity.
  - apply in_or_app. right. now left.
Qed.

Lemma accept_without_registerNumber_keeps_numbered_requests_witness :
  printids
    (store (accept (calm 1700%Z 9)
              (ready_store [print_request 1 "R1"; print_request 2 "R2"] [] [])
              (login_body None)))
  = [print_request 1 "R1"; print_request 2 "R2"].
Proof.
  apply (accept_without_registerNumber_keeps_numbered_requests (calm 1700%Z 9)
           (ready_store [print_request 1 "R1"; print_request 2 "R2"] [] [])
           (login_body None) eq_refl eq_refl).
  intros d [<- | [<- | []]]; simpl; discriminate.
Defined.

(** X11: no print request is lost.  Whenever a request changes [printids],
    it is an accept answered 201, exactly one print request has gone, and the
    accepted card built from the request body has been stored. *)
Theorem print_request_removed_only_after_insert env st req :
  printids (store (handle env st req)) <> printids st ->
  endpoint req = POST_accept_idcard
  /\ statusCode (response (handle env st req)) = 201
  /\ S (length (printids (store (handle env st req)))) = length (printids st)
  /\ acceptedidcards (store (handle env st req))
     = acceptedidcards st ++ [new_AcceptedIdCard env (body req)].
Proof.
  intros N.
  destruct (handle_store_cases env st req)
    as [Heq | (Hep & _ & [[_ Heq] | [Hc Heq]])].
  - rewrite Heq in N. contradiction.
  - rewrite Heq in N. simpl in N. contradiction.
  - rewrite Heq in *. simpl in *.
    repeat split; try assumption.
    rewrite remove_first_length.
    destruct (existsb _ (printids st)) eqn:Ex.
    + apply existsb_exists in Ex. destruct Ex as (x & Hx & _).
      destruct (printids st); [destruct Hx | simpl; lia].
    + exfalso. apply N.
      destruct (remove_first_spec
                  (fun d => matches_path (Body.registerNumber (body req))
                                         (PrintId.registerNumber d))
                  (printids st))
        as [[_ Hrm] | (l1 & d & l2 & Hl & Hd & _ & _)]; [exact Hrm |].
      assert (existsb
                (fun d => matches_path (Body.registerNumber (body req))
                                       (PrintId.registerNumber d))
                (printids st) = true).
      { apply existsb_exists. exists d. split; [| exact Hd].
        rewrite Hl. apply in_or_app. right. now left. }
      congruence.
Qed.

Lemma print_request_removed_only_after_insert_witness :
  statusCode
    (response (handle (calm 1700%Z 9)
                 (ready_store [print_request 1 "R1"] [] [])
                 (request POST_accept_idcard (accept_body "R1" None)))) = 201
  /\ acceptedidcards
       (store (handle (calm 1700%Z 9)
                 (ready_store [print_request 1 "R1"] [] [])
                 (request POST_accept_idcard (accept_body "R1" None))))
     = [] ++ [new_AcceptedIdCard (calm 1700%Z 9) (accept_body "R1" None)].
Proof.
  destruct (print_request_removed_only_after_insert (calm 1700%Z 9)
              (ready_store [print_request 1 "R1"] [] [])
              (request POST_accept_idcard (accept_body "R1" None)))
    as (_ & H1 & _ & H2).
  - vm_compute. discriminate.
  - split; [exact H1 | exact H2].
Defined.

(** X12: what an accept returns is what the next listing ends with.  After
    an accept answered 201 with [data = saved], GET /api/accepted-idcards
    (its read not failing) answers 200 with the cards stored before, as the
    listing loads them, followed by [saved] as it was returned. *)
Theorem accept_then_listing_ends_with_saved env st b env1 message saved :
  response (accept env st b) = reply 201 (PAcceptOk message saved) ->
  fault env1 (Find M_AcceptedIdCard) = None ->
  response (handle env1 (store (accept env st b)) (get GET_accepted_idcards))
  = reply 200
      (PAccepted (map (hydrate_AcceptedIdCard env1) (acceptedidcards st)
                  ++ [saved])).
Proof.
  intros H F.
  assert (H201 : statusCode (response (accept env st b)) = 201)
    by (rewrite H; reflexivity).
  destruct (accept_success env st b H201) as (E & _ & _ & _ & Heq).
  rewrite Heq in H. injection H as _ <-.
  rewrite Heq. simpl.
  set (st' := set_printids _ _).
  assert (E' : readyState st' = 1) by exact E.
  destruct (accepted_reads env1 st' E') as [_ Hr]. rewrite F in Hr.
  rewrite Hr. subst st'. simpl. rewrite map_app. reflexivity.
Qed.

Lemma accept_then_listing_ends_with_saved_witness :
  response (handle (calm 1900%Z 11)
              (store (accept (calm 1700%Z 9)
                        (ready_store [print_request 1 "R1"]
                           [bare_card 3 "R0"] [])
                        (accept_body "R1" None)))
              (get GET_accepted_idcards))
  = reply 200
      (PAccepted (map (hydrate_AcceptedIdCard (calm 1900%Z 11))
                      [bare_card 3 "R0"]
                  ++ [new_AcceptedIdCard (calm 1700%Z 9)
                        (accept_body "R1" None)])).
Proof.
  apply (accept_then_listing_ends_with_saved (calm 1700%Z 9)
           (ready_store [print_request 1 "R1"] [bare_card 3 "R0"] [])
           (accept_body "R1" None) (calm 1900%Z 11) accepted_message);
    reflexivity.
Defined.

(** The lookup is case-sensitive: with "admin1" the only admin identifier,
    "admin1" is answered 200 and "Admin1" 401. *)
Lemma login_supplied_adminId_witness :
  response (handle (calm 0%Z 7) (ready_store [] [] [admin 1 "admin1"])
              (request POST_login (login_body (Some "admin1"))))
    = reply 200 (PLogin true None)
  /\ response (handle (calm 0%Z 7) (ready_store [] [] [admin 1 "admin1"])
              (request POST_login (login_body (Some "Admin1"))))
     = reply 401 (PLogin false (Some "Invalid admin ID")).
Proof.
  split.
  - apply (login_supplied_adminId (calm 0%Z 7)
             (ready_store [] [] [admin 1 "admin1"])
             (login_body (Some "admin1")) "admin1"); try reflexivity.
    exists (admin 1 "admin1"). split; [now left | reflexivity].
  - apply (login_supplied_adminId (calm 0%Z 7)
             (ready_store [] [] [admin 1 "admin1"])
             (login_body (Some "Admin1")) "Admin1"); try reflexivity.
    intros d [<- | []]. simpl. discriminate.
Defined.
